(** * snowboy: the hotword registry and the detection dispatcher

    A shallow embedding of [lib/node/index.ts]: the class [HotwordModels]
    (the registry of declared hotword models and its flattened lookup table)
    and the class [SnowboyDetect] (the writable stream that feeds buffers to
    the native detector and turns the returned index into an event).

    JavaScript objects are references.  The model objects handed to
    [HotwordModels.add] and the registry handed to the [SnowboyDetect]
    constructor stay reachable from the caller, so both live in a store that
    is addressed by location; arrays produced by [concat] are fresh and are
    kept as list values.  A method is a computation over that store which
    either returns or throws, and whatever it wrote before throwing stays
    written.

    [SnowboyDetect] extends Node's [stream.Writable] and so is an event
    emitter.  The emitter keeps, per stream and event name, the listeners
    that the caller attached, and [emit('error')] on a stream without an
    [error] listener throws.  The listeners themselves are the caller's
    code: they are taken to return and to leave the registry, the
    detectors and the streams alone. *)

From Stdlib Require Import ZArith String List Bool Lia.
From Stdlib Require Import Floats.PrimFloat.
From stdpp Require Import base functions list strings.
Import ListNotations.

Local Open Scope string_scope.
Local Open Scope list_scope.
Local Open Scope Z_scope.

(** ** Values, exceptions and the method monad *)

(** Locations of heap objects. *)
Definition loc := nat.

(** [Buffer]: the raw bytes of one audio chunk. *)
Definition Buffer := list Byte.byte.

(** The JavaScript values that reach [emit] as arguments: a string, or
    [undefined] (what an array read past its end evaluates to). *)
Inductive jsval :=
  | undefined
  | str (s : string).

(** What a method can throw: the runtime's [TypeError] (a property read on
    [undefined]), a plain [new Error(message)], or the error with which the
    event emitter answers an [error] event that nobody listens to (its
    message differs between versions of the runtime). *)
Inductive exn :=
  | TypeError
  | Error (message : string)
  | ERR_UNHANDLED_ERROR.

Inductive outcome (A : Type) :=
  | Return (a : A)
  | Throw (e : exn).
Arguments Return {A} a.
Arguments Throw {A} e.

(** A method body run against a state [S]: the outcome together with the
    state it leaves behind. *)
Definition M (S A : Type) : Type := S -> outcome A * S.

#[global] Instance M_ret {S} : MRet (M S) := fun A a s => (Return a, s).

#[global] Instance M_bind {S} : MBind (M S) := fun A B f m s =>
  match m s with
  | (Return a, s') => f a s'
  | (Throw e, s') => (Throw e, s')
  end.

Definition throw {S A} (e : exn) : M S A := fun s => (Throw e, s).
Definition gets {S A} (f : S -> A) : M S A := fun s => (Return (f s), s).
Definition modify {S} (f : S -> S) : M S unit := fun s => (Return tt, f s).

(** JavaScript truthiness of a number: everything but [0], [-0] and [NaN]. *)
Definition truthy_float (x : float) : bool := negb (is_zero x || is_nan x).
Definition truthy_int (n : Z) : bool := negb (n =? 0).

(** [enum DetectionResult] *)
Module DetectionResult.
Definition SILENCE : Z := -2.
Definition ERROR : Z := -1.
Definition NOISE : Z := 0.
End DetectionResult.

(** ** class HotwordModels *)

Module HotwordModels.

(** [hotwords: string | Array<string>] *)
Inductive hotwords_t :=
  | one_hotword (s : string)
  | hotword_list (l : list string).

(** [interface HotwordModel] *)
Record HotwordModel := mkHotwordModel {
  file : string;
  sensitivity : option string;
  hotwords : hotwords_t
}.

(** The fields of one [HotwordModels] instance.  [models] holds references
    to the model objects; [lookupTable] is declared without an initialiser,
    so it is [undefined] ([None]) until the first assignment. *)
Record t := mkHotwordModels {
  models : list loc;
  lookupTable : option (list string)
}.

(** [new HotwordModels()] *)
Definition empty : t := {| models := []; lookupTable := None |}.

(** What the registry's methods read and write: the file system as
    [fs.existsSync] sees it, the model objects and the registries. *)
Record store := mkStore {
  existsSync : string -> bool;
  model_heap : loc -> HotwordModel;
  registry_heap : loc -> t
}.

Definition set_model (r : loc) (m : HotwordModel) (s : store) : store :=
  {| existsSync := existsSync s;
     model_heap := <[r := m]> (model_heap s);
     registry_heap := registry_heap s |}.

Definition set_registry (r : loc) (g : t) (s : store) : store :=
  {| existsSync := existsSync s;
     model_heap := model_heap s;
     registry_heap := <[r := g]> (registry_heap s) |}.

(** [Array.prototype.concat] with one argument of type
    [string | Array<string>]: an array argument is spread, anything else is
    appended as a single element. *)
Definition concat (acc : list string) (h : hotwords_t) : list string :=
  acc ++ match h with
         | one_hotword s => [s]
         | hotword_list l => l
         end.

(** [Array.prototype.join()] on strings, where an [undefined] element is
    rendered as the empty string. *)
Definition join (l : list (option string)) : string :=
  String.concat "," (map (fun o => match o with Some s => s | None => "" end) l).

(** [.length] of a field that may be [undefined]. *)
Definition length_of (a : option (list string)) : M store Z :=
  match a with
  | None => throw TypeError
  | Some l => mret (Z.of_nat (length l))
  end.

(** [private generateHotwordsLookupTable()] *)
Definition generateHotwordsLookupTable (this : loc) : M store (list string) :=
  gets (fun s =>
    fold_left (fun acc model => concat acc (hotwords (model_heap s model)))
              (models (registry_heap s this)) []).

(** The three errors of the source are all plain [Error]s, told apart by
    their message. *)
Definition ValidationError (file : string) : exn :=
  Error ("Model " +:+ file +:+ " does not exists.").
Definition IndexError : exn := Error "Index out of bounds.".

(** [add(model: HotwordModel)] *)
Definition add (this model : loc) : M store unit :=
  (* model.hotwords = [].concat(model.hotwords); *)
  m ← gets (fun s => model_heap s model);
  modify (set_model model {| file := file m;
                             sensitivity := sensitivity m;
                             hotwords := hotword_list (concat [] (hotwords m)) |});;
  (* if (fs.existsSync(model.file) === false) throw ... *)
  found ← gets (fun s => existsSync s (file (model_heap s model)));
  if Bool.eqb found false then
    f ← gets (fun s => file (model_heap s model));
    throw (ValidationError f)
  else
    (* this.models.push(model); *)
    modify (fun s => set_registry this
              {| models := models (registry_heap s this) ++ [model];
                 lookupTable := lookupTable (registry_heap s this) |} s);;
    (* this.lookupTable = this.generateHotwordsLookupTable(); *)
    table ← generateHotwordsLookupTable this;
    modify (fun s => set_registry this
              {| models := models (registry_heap s this);
                 lookupTable := Some table |} s).

(** [get modelString()] *)
Definition modelString (this : loc) (s : store) : string :=
  join (map (fun model => Some (file (model_heap s model)))
            (models (registry_heap s this))).

(** [get sensitivityString()] *)
Definition sensitivityString (this : loc) (s : store) : string :=
  join (map (fun model => sensitivity (model_heap s model))
            (models (registry_heap s this))).

(** [lookup(index: number): string].  The guard is
    [index < 0 || this.lookupTable.length]: its right operand is only
    evaluated when the left one is false, and it is the length itself,
    taken for its truthiness. *)
Definition lookup (this : loc) (index : Z) : M store jsval :=
  out_of_bounds ←
    (if index <? 0 then mret true
     else len ← (s ← gets id; length_of (lookupTable (registry_heap s this)));
          mret (truthy_int len));
  if (out_of_bounds : bool) then throw IndexError
  else
    (* return this.lookupTable[index]; *)
    table ← gets (fun s => lookupTable (registry_heap s this));
    match table with
    | None => throw TypeError
    | Some l => mret (match l !! Z.to_nat index with
                      | Some label => str label
                      | None => undefined
                      end)
    end.

(** [numHotwords(): number] *)
Definition numHotwords (this : loc) : M store Z :=
  s ← gets id;
  length_of (lookupTable (registry_heap s this)).

(** The labels that a [hotwords] value stands for, whichever of the two
    shapes it has. *)
Definition labels (h : hotwords_t) : list string := concat [] h.

(** The labels of the model objects [ms], one model after the other. *)
Definition flatten (s : store) (ms : list loc) : list string :=
  List.concat (map (fun model => labels (hotwords (model_heap s model))) ms).

(** A caller adding the models [ms] one after the other. *)
Fixpoint add_all (this : loc) (ms : list loc) : M store unit :=
  match ms with
  | [] => mret tt
  | model :: rest => add this model;; add_all this rest
  end.

End HotwordModels.

(** ** The native detector *)

(** [SnowboyDetectNativeInterface] is the class exported by the compiled
    addon; index.ts only calls it.  It is taken as a parameter: a type of
    detector states with the constructor and the three methods that the
    modelled code calls.  The constructor may throw; the methods return. *)
Class SnowboyDetectNativeInterface (engine : Type) := {
  native_new : string -> string -> outcome engine;
  NumHotwords : engine -> Z;
  RunDetection : engine -> Buffer -> Z * engine;
  SetAudioGain : engine -> float -> engine
}.

(** What a [SnowboyDetect] instance does that the outside can observe, in the
    order in which it happens: constructing a native detector, calling one of
    its methods, and [this.emit(name, ...args)]. *)
Inductive native_call :=
  | NumHotwords_call
  | RunDetection_call (buffer : Buffer)
  | SetAudioGain_call (gain : float).

Inductive effect :=
  | Construct (resource models : string)
  | Native (instance : loc) (call : native_call)
  | Emit (name : string) (args : list jsval).

(** [interface DetectorOptions]; [models] is a reference to the registry. *)
Module DetectorOptions.
Record t := mk {
  resource : string;
  models : loc;
  audioGain : option float
}.
End DetectorOptions.

(** ** class SnowboyDetect *)

Module SnowboyDetect.

(** The fields of an instance: references to its native detector and to
    the registry it was given. *)
Record t := mk {
  nativeInstance : loc;
  models : loc
}.

Definition ConfigurationMismatchError : exn :=
  Error "Loaded hotwords count does not match number of hotwords defined.".

Section WithNative.
Context {engine : Type} {native : SnowboyDetectNativeInterface engine}.

(** The registry's store, the native detectors allocated so far, the
    number of listeners attached per stream and event name, and the trace
    of effects.  A stream and its detector are created together, so the
    emitter state of a stream is kept under the location of its detector. *)
Record world := mkWorld {
  store : HotwordModels.store;
  natives : loc -> engine;
  next_native : loc;
  listeners : loc -> string -> nat;
  trace : list effect
}.

Definition log (e : effect) (w : world) : world :=
  {| store := store w; natives := natives w;
     next_native := next_native w; listeners := listeners w;
     trace := trace w ++ [e] |}.

Definition set_native (i : loc) (e : engine) (w : world) : world :=
  {| store := store w; natives := <[i := e]> (natives w);
     next_native := next_native w; listeners := listeners w;
     trace := trace w |}.

(** The stream under construction becomes part of the world together with
    its detector: both get the next free location, and the stream starts
    with the emitter state that [super()] gave it, without listeners. *)
Definition alloc (e : engine) (w : world) : world :=
  {| store := store w; natives := <[next_native w := e]> (natives w);
     next_native := S (next_native w);
     listeners := <[next_native w := fun _ => 0%nat]> (listeners w);
     trace := trace w |}.

(** A registry method called from the stream. *)
Definition lift {A} (c : M HotwordModels.store A) : M world A := fun w =>
  let (o, s') := c (store w) in
  (o, {| store := s'; natives := natives w;
         next_native := next_native w; listeners := listeners w;
         trace := trace w |}).

(** [new SnowboyDetectNative(resource, models)] *)
Definition native_construct (resource models : string) : M world loc :=
  modify (log (Construct resource models));;
  match native_new resource models with
  | Throw e => throw e
  | Return e =>
      i ← gets next_native;
      modify (alloc e);;
      mret i
  end.

Definition native_NumHotwords (i : loc) : M world Z :=
  modify (log (Native i NumHotwords_call));;
  gets (fun w => NumHotwords (natives w i)).

Definition native_RunDetection (i : loc) (buffer : Buffer) : M world Z :=
  modify (log (Native i (RunDetection_call buffer)));;
  r ← gets (fun w => RunDetection (natives w i) buffer);
  modify (set_native i (snd r));;
  mret (fst r).

Definition native_SetAudioGain (i : loc) (gain : float) : M world unit :=
  modify (log (Native i (SetAudioGain_call gain)));;
  modify (fun w => set_native i (SetAudioGain (natives w i) gain) w).

(** [this.on(name, listener)], inherited from the emitter: one more
    listener for [name] on this stream. *)
Definition on (this : t) (name : string) : M world unit :=
  modify (fun w =>
    {| store := store w; natives := natives w; next_native := next_native w;
       listeners := <[nativeInstance this :=
                       <[name := S (listeners w (nativeInstance this) name)]>
                         (listeners w (nativeInstance this))]> (listeners w);
       trace := trace w |}).

(** [this.emit(name, ...args)], inherited from the emitter.  The call is
    recorded; an [error] event on a stream without [error] listener makes
    the emitter throw, any other call hands the arguments to the listeners
    and returns. *)
Definition emit (this : t) (name : string) (args : list jsval) : M world unit :=
  modify (log (Emit name args));;
  n ← gets (fun w => listeners w (nativeInstance this) name);
  if String.eqb name "error" && (n =? 0)%nat then throw ERR_UNHANDLED_ERROR
  else mret tt.

(** [constructor(options: DetectorOptions)] *)
Definition constructor (options : DetectorOptions.t) : M world t :=
  let models := DetectorOptions.models options in
  modelString ← lift (gets (HotwordModels.modelString models));
  nativeInstance ← native_construct (DetectorOptions.resource options) modelString;
  loaded ← native_NumHotwords nativeInstance;
  defined ← lift (HotwordModels.numHotwords models);
  if negb (loaded =? defined) then throw ConfigurationMismatchError
  else
    match DetectorOptions.audioGain options with
    | Some gain =>
        if truthy_float gain then native_SetAudioGain nativeInstance gain
        else mret tt
    | None => mret tt
    end;;
    mret {| nativeInstance := nativeInstance; models := models |}.

(** [setAudioGain(gain: number): void] *)
Definition setAudioGain (this : t) (gain : float) : M world unit :=
  native_SetAudioGain (nativeInstance this) gain.

(** [numHotwords(): number] *)
Definition numHotwords (this : t) : M world Z :=
  native_NumHotwords (nativeInstance this).

(** [private processDetectionResult(index: number): void] *)
Definition processDetectionResult (this : t) (index : Z) : M world unit :=
  if index =? DetectionResult.ERROR then emit this "error" []
  else if index =? DetectionResult.SILENCE then emit this "silence" []
  else if index =? DetectionResult.NOISE then emit this "noise" []
  else
    hotword ← lift (HotwordModels.lookup (models this) index);
    emit this "hotword" [hotword].

(** [runDetection(buffer: Buffer): number] *)
Definition runDetection (this : t) (buffer : Buffer) : M world Z :=
  index ← native_RunDetection (nativeInstance this) buffer;
  processDetectionResult this index;;
  mret index.

(** What running [c] from [w] appends to the trace. *)
Definition effects_of {A} (c : M world A) (w : world) : list effect :=
  drop (length (trace w)) (trace (snd (c w))).

(** How often a run of effects asks a native detector for its hotword
    count, which is what the constructor compares with the registry. *)
Definition is_count_check (e : effect) : bool :=
  match e with
  | Native _ NumHotwords_call => true
  | _ => false
  end.
Definition count_checks (t : list effect) : nat :=
  length (List.filter is_count_check t).

(** The contract of one detection call as the specification words it:
    the buffer goes to the detector, exactly one event is emitted, and
    the detector's index is returned. *)
Definition one_event_per_call (this : t) (buffer : Buffer) (w : world) : Prop :=
  let i := nativeInstance this in
  let k := fst (RunDetection (natives w i) buffer) in
  exists name args,
    fst (runDetection this buffer w) = Return k
    /\ effects_of (runDetection this buffer) w
       = [Native i (RunDetection_call buffer); Emit name args].

(** Construction applied the gain [gain]: it returned a stream and called
    [SetAudioGain(gain)] on that stream's detector. *)
Definition gain_applied (options : DetectorOptions.t) (gain : float) (w : world) : Prop :=
  exists this,
    fst (constructor options w) = Return this
    /\ In (Native (nativeInstance this) (SetAudioGain_call gain))
          (effects_of (constructor options) w).

End WithNative.

Arguments world engine : clear implicits.

End SnowboyDetect.

(** ** A scripted detector

    A stand-in for the native detector, used to run the stream on concrete
    inputs: it reports a fixed hotword count, answers [RunDetection] with the
    next index of a script ([0] once the script is used up) and remembers the
    last gain it was given. *)
Module Scripted.

Record engine := mk {
  count : Z;
  script : list Z;
  gain : option float
}.

(** The detectors that [new] builds report [n] hotwords and follow [s]. *)
Definition instance (n : Z) (s : list Z) : SnowboyDetectNativeInterface engine :=
  {| native_new := fun _ _ => Return {| count := n; script := s; gain := None |};
     NumHotwords := count;
     RunDetection := fun e _ =>
       match script e with
       | [] => (0, e)
       | k :: rest => (k, {| count := count e; script := rest; gain := gain e |})
       end;
     SetAudioGain := fun e g =>
       {| count := count e; script := script e; gain := Some g |} |}.

End Scripted.

(** ** The scenario of the specification

    Two models on disk, one with the single label [alexa] and one with the
    labels [ok_google] and [hey_google], and a third declaration whose file is
    missing. *)
Module Scenario.
Import HotwordModels.

Definition alexa : HotwordModel :=
  {| file := "alexa.umdl"; sensitivity := Some "0.5";
     hotwords := one_hotword "alexa" |}.
Definition google : HotwordModel :=
  {| file := "google.pmdl"; sensitivity := None;
     hotwords := hotword_list ["ok_google"; "hey_google"] |}.
Definition jarvis : HotwordModel :=
  {| file := "missing.pmdl"; sensitivity := None;
     hotwords := one_hotword "jarvis" |}.

Definition disk (f : string) : bool :=
  String.eqb f "alexa.umdl" || String.eqb f "google.pmdl".

(** The model objects sit at locations 0, 1 and 2; every registry is
    fresh. *)
Definition initial : store :=
  {| existsSync := disk;
     model_heap := fun r => match r with
                            | O => alexa
                            | S O => google
                            | _ => jarvis
                            end;
     registry_heap := fun _ => empty |}.

Definition registry : loc := 0%nat.

(** The store after [alexa] and [google] have been added. *)
Definition loaded : store := snd (add_all registry [0%nat; 1%nat] initial).

(** A registry that holds one model without labels. *)
Definition silent : store :=
  snd (add registry 0%nat
         {| existsSync := disk;
            model_heap := fun _ => {| file := "alexa.umdl"; sensitivity := None;
                                      hotwords := hotword_list [] |};
            registry_heap := fun _ => empty |}).

(** A world around a store, with no detector allocated yet. *)
Definition world_of (s : store) : SnowboyDetect.world Scripted.engine :=
  {| SnowboyDetect.store := s;
     SnowboyDetect.natives := fun _ => Scripted.mk 0 [] None;
     SnowboyDetect.next_native := 0%nat;
     SnowboyDetect.listeners := fun _ _ => 0%nat;
     SnowboyDetect.trace := [] |}.

Definition options (gain : option float) : DetectorOptions.t :=
  {| DetectorOptions.resource := "common.res";
     DetectorOptions.models := registry;
     DetectorOptions.audioGain := gain |}.

(** A stream over the registry, with its detector at location 0. *)
Definition stream : SnowboyDetect.t :=
  {| SnowboyDetect.nativeInstance := 0%nat; SnowboyDetect.models := registry |}.

(** The detector class whose instances report the three hotwords of the
    loaded registry, and one whose instances report two. *)
Definition detector : SnowboyDetectNativeInterface Scripted.engine :=
  Scripted.instance 3 [].
Definition short_detector : SnowboyDetectNativeInterface Scripted.engine :=
  Scripted.instance 2 [].

(** A world in which that detector is about to answer with the indices
    [script]; the stream is as the constructor left it, without listeners. *)
Definition listening (s : store) (script : list Z) : SnowboyDetect.world Scripted.engine :=
  {| SnowboyDetect.store := s;
     SnowboyDetect.natives := fun _ => Scripted.mk 3 script None;
     SnowboyDetect.next_native := 1%nat;
     SnowboyDetect.listeners := fun _ _ => 0%nat;
     SnowboyDetect.trace := [] |}.

(** The same world after the caller attached an [error] listener to the
    stream. *)
Definition attended (s : store) (script : list Z) : SnowboyDetect.world Scripted.engine :=
  snd (SnowboyDetect.on stream "error" (listening s script)).

End Scenario.

(** ** The lookup table in the specification's words

    What the specification says the lookup table holds, written down without
    the code's [concat]: a model's label list, the concatenation of the label
    lists of a run of models, and the sum of their label counts. *)
Module Stated.
Import HotwordModels.

(** A model's label list: its one label, or its list of labels. *)
Definition label_list (m : HotwordModel) : list string :=
  match hotwords m with
  | one_hotword label => [label]
  | hotword_list ls => ls
  end.

(** The label lists of the models [ms], one after the other. *)
Fixpoint concatenation (s : store) (ms : list loc) : list string :=
  match ms with
  | [] => []
  | model :: rest => label_list (model_heap s model) ++ concatenation s rest
  end.

(** The sum of the label counts of the models [ms]. *)
Fixpoint label_total (s : store) (ms : list loc) : nat :=
  match ms with
  | [] => 0%nat
  | model :: rest => (length (label_list (model_heap s model)) + label_total s rest)%nat
  end.

(** The state [s'] of the registry [this] after the models [ms], as they
    were in [s], have been added: there is a lookup table, [numHotwords()]
    returns its length, that length is the sum of the models' label counts,
    and the table is the concatenation of their label lists. *)
Definition table_claim (this : loc) (ms : list loc) (s s' : store) : Prop :=
  exists table,
    lookupTable (registry_heap s' this) = Some table
    /\ fst (numHotwords this s') = Return (Z.of_nat (length table))
    /\ length table = label_total s ms
    /\ table = concatenation s ms.

End Stated.

(** ** Callers and invariants

    What the further properties are stated with: the invariant that ties the
    lookup table of a registry to its models, and a caller that pushes
    buffers through a stream. *)
Module Usage.
Import HotwordModels.

(** The file that the model object [r] names is on disk. *)
Definition on_disk (s : store) (r : loc) : bool :=
  existsSync s (file (model_heap s r)).

(** The lookup table of the registry [this] holds the labels of its models
    as they are now, which is what [generateHotwordsLookupTable] builds. *)
Definition in_sync (this : loc) (s : store) : Prop :=
  lookupTable (registry_heap s this)
  = Some (flatten s (models (registry_heap s this))).

Definition is_emit (e : effect) : bool :=
  match e with
  | Emit _ _ => true
  | _ => false
  end.

Definition is_detection (e : effect) : bool :=
  match e with
  | Native _ (RunDetection_call _) => true
  | _ => false
  end.

(** How many events, and how many detector runs, a run of effects holds. *)
Definition count_emits (t : list effect) : nat := length (List.filter is_emit t).
Definition count_detections (t : list effect) : nat :=
  length (List.filter is_detection t).

(** A detector class whose constructor rejects every resource; its methods
    are those of the scripted detector. *)
Definition rejecting_detector : SnowboyDetectNativeInterface Scripted.engine :=
  {| native_new := fun _ _ => Throw (Error "Failed to load resource.");
     NumHotwords := Scripted.count;
     RunDetection := RunDetection (SnowboyDetectNativeInterface := Scripted.instance 0 []);
     SetAudioGain := SetAudioGain (SnowboyDetectNativeInterface := Scripted.instance 0 []) |}.

Section WithNative.
Context {engine : Type} {native : SnowboyDetectNativeInterface engine}.

(** A caller pushing the buffers through [runDetection] one after the
    other and collecting the indices; a call that throws ends the run. *)
Fixpoint feed (this : SnowboyDetect.t) (buffers : list Buffer)
    : M (SnowboyDetect.world engine) (list Z) :=
  match buffers with
  | [] => mret []
  | buffer :: rest =>
      index ← SnowboyDetect.runDetection this buffer;
      indices ← feed this rest;
      mret (index :: indices)
  end.

End WithNative.

End Usage.

(** * Properties of the registry *)

Module RegistryFacts.
Import HotwordModels.

Lemma fold_left_concat (s : store) (ms : list loc) (acc : list string) :
  fold_left (fun acc model => concat acc (hotwords (model_heap s model))) ms acc
  = acc ++ flatten s ms.
Proof.
  revert acc. induction ms as [|m ms IH]; intros acc; simpl.
  - now rewrite app_nil_r.
  - rewrite IH. unfold flatten, labels, concat. simpl.
    now rewrite <- app_assoc.
Qed.

(** [add] on a model whose file is missing: the model object is rewritten,
    then the call throws. *)
Lemma add_missing (this model : loc) (s : store) :
  existsSync s (file (model_heap s model)) = false ->
  add this model s =
    (Throw (ValidationError (file (model_heap s model))),
     set_model model
       {| file := file (model_heap s model);
          sensitivity := sensitivity (model_heap s model);
          hotwords := hotword_list (labels (hotwords (model_heap s model))) |} s).
Proof.
  intros Hf. unfold add, mbind, M_bind, gets, modify, throw. simpl.
  rewrite fn_lookup_insert. simpl. rewrite Hf. simpl.
  now rewrite fn_lookup_insert.
Qed.

(** [add] on a model whose file exists: the model object is rewritten,
    the reference is pushed, and the table is rebuilt from the model
    objects as they are now. *)
Lemma add_present (this model : loc) (s : store) :
  existsSync s (file (model_heap s model)) = true ->
  let s1 := set_model model
       {| file := file (model_heap s model);
          sensitivity := sensitivity (model_heap s model);
          hotwords := hotword_list (labels (hotwords (model_heap s model))) |} s in
  let ms := models (registry_heap s this) ++ [model] in
  add this model s =
    (Return tt,
     set_registry this {| models := ms; lookupTable := Some (flatten s1 ms) |}
       (set_registry this
          {| models := ms; lookupTable := lookupTable (registry_heap s this) |} s1)).
Proof.
  intros Hf s1 ms.
  assert (E := fold_left_concat s1 ms []).
  unfold add, mbind, M_bind, gets, modify, throw, generateHotwordsLookupTable.
  simpl. rewrite fn_lookup_insert. simpl. rewrite Hf. simpl.
  rewrite !fn_lookup_insert. simpl.
  simpl in E. subst s1 ms. simpl in E. rewrite <- E. reflexivity.
Qed.

Lemma numHotwords_eval (this : loc) (s : store) :
  numHotwords this s =
    (match lookupTable (registry_heap s this) with
     | None => Throw TypeError
     | Some l => Return (Z.of_nat (length l))
     end, s).
Proof.
  unfold numHotwords, mbind, M_bind, gets, length_of. simpl.
  now destruct (lookupTable (registry_heap s this)).
Qed.

(** Every way through [lookup]: a negative index is rejected before the
    table is touched; otherwise the table must be defined, and only an
    empty one gets past the guard, where the read is past the end. *)
Lemma lookup_eval (this : loc) (index : Z) (s : store) :
  lookup this index s =
    (if index <? 0 then Throw IndexError
     else match lookupTable (registry_heap s this) with
          | None => Throw TypeError
          | Some [] => Return undefined
          | Some (_ :: _) => Throw IndexError
          end, s).
Proof.
  unfold lookup, mbind, M_bind, gets, length_of, throw, mret, M_ret. simpl.
  destruct (index <? 0); [reflexivity|].
  destruct (lookupTable (registry_heap s this)) as [[|label l]|] eqn:E;
    simpl; rewrite ?E; reflexivity.
Qed.

Lemma flatten_ext (s1 s2 : store) (ms : list loc) :
  (forall r, labels (hotwords (model_heap s1 r)) = labels (hotwords (model_heap s2 r))) ->
  flatten s1 ms = flatten s2 ms.
Proof.
  intros E. unfold flatten. f_equal. apply map_ext. intros r. apply E.
Qed.

(** What [add] leaves of a model object, whether it throws or not. *)
Lemma add_model_heap (this model r : loc) (s : store) :
  model_heap (snd (add this model s)) r =
    if decide (model = r)
    then {| file := file (model_heap s model);
            sensitivity := sensitivity (model_heap s model);
            hotwords := hotword_list (labels (hotwords (model_heap s model))) |}
    else model_heap s r.
Proof.
  destruct (existsSync s (file (model_heap s model))) eqn:Hf.
  - rewrite (add_present this model s Hf). reflexivity.
  - rewrite (add_missing this model s Hf). reflexivity.
Qed.

Lemma add_keeps_labels (this model r : loc) (s : store) :
  labels (hotwords (model_heap (snd (add this model s)) r))
  = labels (hotwords (model_heap s r)).
Proof.
  rewrite add_model_heap. destruct (decide (model = r)) as [->|]; reflexivity.
Qed.

Lemma add_keeps_file (this model r : loc) (s : store) :
  file (model_heap (snd (add this model s)) r) = file (model_heap s r)
  /\ sensitivity (model_heap (snd (add this model s)) r)
     = sensitivity (model_heap s r).
Proof.
  rewrite add_model_heap. destruct (decide (model = r)) as [->|]; auto.
Qed.

(** The state of the registry [this] after a run of successful adds. *)
Lemma add_all_inv (this : loc) (ms : list loc) :
  forall s s',
    add_all this ms s = (Return tt, s') ->
    models (registry_heap s' this) = models (registry_heap s this) ++ ms
    /\ (forall r, labels (hotwords (model_heap s' r))
                  = labels (hotwords (model_heap s r)))
    /\ lookupTable (registry_heap s' this)
       = match ms with
         | [] => lookupTable (registry_heap s this)
         | _ :: _ => Some (flatten s' (models (registry_heap s' this)))
         end.
Proof.
  induction ms as [|m ms IH]; intros s s' Hrun.
  - inversion Hrun; subst. now rewrite app_nil_r.
  - simpl in Hrun. unfold mbind, M_bind in Hrun.
    destruct (existsSync s (file (model_heap s m))) eqn:Hf.
    + pose proof (fun r => add_keeps_labels this m r s) as Hl.
      rewrite (add_present this m s Hf) in Hrun, Hl. simpl in Hrun, Hl.
      apply IH in Hrun. destruct Hrun as (Hm & Hk & Ht).
      simpl in Hm. rewrite fn_lookup_insert in Hm. simpl in Hm.
      rewrite <- app_assoc in Hm. simpl in Hm.
      assert (Hk' : forall r, labels (hotwords (model_heap s' r))
                              = labels (hotwords (model_heap s r))).
      { intros r. rewrite Hk. apply Hl. }
      repeat split; [exact Hm | exact Hk' |].
      destruct ms as [|m' ms]; [|exact Ht].
      rewrite Ht. simpl. rewrite fn_lookup_insert. simpl.
      rewrite Hm. f_equal. apply flatten_ext. intros r.
      symmetry. apply Hk.
    + rewrite (add_missing this m s Hf) in Hrun. discriminate.
Qed.

(** Once the table holds a label, no index gets past the guard of
    [lookup]: the guard reads the length where it should compare with
    it. *)
Lemma lookup_nonempty_table (this : loc) (s : store) (label : string) (l : list string) :
  lookupTable (registry_heap s this) = Some (label :: l) ->
  forall index, lookup this index s = (Throw IndexError, s).
Proof.
  intros Ht index. rewrite lookup_eval, Ht. now destruct (index <? 0).
Qed.

(** C2.  [lookup(index)] is meant to return the label at position [index]
    for [0 <= index < length] and to fail only outside that range.  On the
    table [alexa, ok_google, hey_google] the code throws the out-of-bounds
    error at each of the valid indices 0, 1 and 2. *)
Theorem lookup_rejects_valid_index :
  lookupTable (registry_heap Scenario.loaded Scenario.registry)
    = Some ["alexa"; "ok_google"; "hey_google"]
  /\ lookup Scenario.registry 0 Scenario.loaded = (Throw IndexError, Scenario.loaded)
  /\ lookup Scenario.registry 1 Scenario.loaded = (Throw IndexError, Scenario.loaded)
  /\ lookup Scenario.registry 2 Scenario.loaded = (Throw IndexError, Scenario.loaded).
Proof.
  assert (Ht : lookupTable (registry_heap Scenario.loaded Scenario.registry)
               = Some ["alexa"; "ok_google"; "hey_google"]) by reflexivity.
  split; [exact Ht|].
  repeat split; apply (lookup_nonempty_table _ _ _ _ Ht).
Qed.

(** C4.  Adding a model whose resource file does not exist throws the
    validation error and leaves every registry as it was: the list of
    models and its length, the lookup table, [modelString] and
    [sensitivityString]. *)
Theorem add_missing_file_is_atomic (this model : loc) (s : store) :
  existsSync s (file (model_heap s model)) = false ->
  exists s',
    add this model s = (Throw (ValidationError (file (model_heap s model))), s')
    /\ forall r,
         registry_heap s' r = registry_heap s r
         /\ length (models (registry_heap s' r)) = length (models (registry_heap s r))
         /\ lookupTable (registry_heap s' r) = lookupTable (registry_heap s r)
         /\ modelString r s' = modelString r s
         /\ sensitivityString r s' = sensitivityString r s.
Proof.
  intros Hf. eexists. split; [apply (add_missing this model s Hf)|].
  intros r.
  pose proof (fun x => add_keeps_file this model x s) as Hk.
  rewrite (add_missing this model s Hf) in Hk. simpl in Hk.
  repeat split.
  - unfold modelString, join. simpl. f_equal. rewrite !map_map.
    apply map_ext. intros x. now rewrite (proj1 (Hk x)).
  - unfold sensitivityString, join. simpl. f_equal. rewrite !map_map.
    apply map_ext. intros x. now rewrite (proj2 (Hk x)).
Qed.

Lemma add_missing_file_is_atomic_witness :
  exists s',
    add Scenario.registry 2%nat Scenario.loaded
      = (Throw (ValidationError "missing.pmdl"), s')
    /\ forall r,
         registry_heap s' r = registry_heap Scenario.loaded r
         /\ length (models (registry_heap s' r))
            = length (models (registry_heap Scenario.loaded r))
         /\ lookupTable (registry_heap s' r)
            = lookupTable (registry_heap Scenario.loaded r)
         /\ modelString r s' = modelString r Scenario.loaded
         /\ sensitivityString r s' = sensitivityString r Scenario.loaded.
Proof.
  apply (add_missing_file_is_atomic Scenario.registry 2%nat Scenario.loaded).
  reflexivity.
Defined.

Lemma flatten_concatenation (s : store) (ms : list loc) :
  flatten s ms = Stated.concatenation s ms.
Proof.
  induction ms as [|m ms IH]; [reflexivity|].
  unfold flatten in *. simpl. rewrite IH. reflexivity.
Qed.

Lemma length_concatenation (s : store) (ms : list loc) :
  length (Stated.concatenation s ms) = Stated.label_total s ms.
Proof.
  induction ms as [|m ms IH]; [reflexivity|].
  simpl. now rewrite length_app, IH.
Qed.

(** C5, as the code has it.  After a run of one or more successful adds on
    a fresh registry the list of models is the list of added models, the
    lookup table is the concatenation of their label lists in insertion
    order, [numHotwords()] returns the length of the table, and that length
    is the sum of the models' label counts.  The label lists are those the
    models had before the run; the adds do not change them. *)
Theorem table_after_adds (this m : loc) (ms : list loc) (s s' : store) :
  registry_heap s this = empty ->
  add_all this (m :: ms) s = (Return tt, s') ->
  Stated.table_claim this (m :: ms) s s'
  /\ models (registry_heap s' this) = m :: ms
  /\ Stated.concatenation s' (m :: ms) = Stated.concatenation s (m :: ms).
Proof.
  intros Hfresh Hrun.
  destruct (add_all_inv this (m :: ms) s s' Hrun) as (Hm & Hk & Ht).
  rewrite Hfresh in Hm. simpl in Hm. rewrite Hm in Ht.
  assert (Hflat : flatten s' (m :: ms) = flatten s (m :: ms))
    by apply flatten_ext, Hk.
  split; [|split].
  - exists (Stated.concatenation s (m :: ms)).
    rewrite <- flatten_concatenation, <- Hflat. split; [exact Ht|].
    split; [now rewrite numHotwords_eval, Ht|].
    split; [|reflexivity].
    rewrite Hflat, flatten_concatenation. apply length_concatenation.
  - exact Hm.
  - now rewrite <- !flatten_concatenation.
Qed.

Lemma table_after_adds_witness :
  lookupTable (registry_heap Scenario.loaded Scenario.registry)
    = Some ["alexa"; "ok_google"; "hey_google"]
  /\ fst (numHotwords Scenario.registry Scenario.loaded) = Return 3
  /\ Stated.label_total Scenario.initial [0%nat; 1%nat] = (1 + 2)%nat
  /\ models (registry_heap Scenario.loaded Scenario.registry) = [0%nat; 1%nat].
Proof.
  destruct (table_after_adds Scenario.registry 0%nat [1%nat]
              Scenario.initial Scenario.loaded eq_refl eq_refl)
    as ((table & Htable & Hcount & Hsum & ->) & Hmodels & _).
  split; [exact Htable|]. split; [exact Hcount|].
  split; [reflexivity|exact Hmodels].
Defined.

(** C5 as the specification words it fails for the run without any add:
    the fresh registry has no lookup table and [numHotwords()] throws. *)
Lemma no_table_before_first_add :
  add_all Scenario.registry [] Scenario.initial = (Return tt, Scenario.initial)
  /\ fst (numHotwords Scenario.registry Scenario.initial) = Throw TypeError
  /\ ~ Stated.table_claim Scenario.registry [] Scenario.initial Scenario.initial.
Proof.
  split; [reflexivity|]. split; [reflexivity|].
  intros (table & Htable & _). discriminate.
Qed.

(** C9.  While the lookup table has never been assigned (a fresh registry,
    or one on which every add so far has thrown), [numHotwords()] throws a
    [TypeError] and [lookup(index)] throws for every index: the
    out-of-bounds error for a negative index, a [TypeError] otherwise.
    After one successful add [numHotwords()] returns a number and
    [lookup] no longer throws a [TypeError]. *)
Theorem accessors_throw_before_first_add (this : loc) (s : store) :
  lookupTable (registry_heap s this) = None ->
  numHotwords this s = (Throw TypeError, s)
  /\ (forall index,
        lookup this index s
        = (Throw (if index <? 0 then IndexError else TypeError), s))
  /\ (forall model s',
        add this model s = (Return tt, s') ->
        (exists n, numHotwords this s' = (Return n, s'))
        /\ forall index, fst (lookup this index s') <> Throw TypeError).
Proof.
  intros Hnone. split; [|split].
  - now rewrite numHotwords_eval, Hnone.
  - intros index. rewrite lookup_eval, Hnone. now destruct (index <? 0).
  - intros model s' Hadd.
    destruct (existsSync s (file (model_heap s model))) eqn:Hf.
    2: { rewrite (add_missing this model s Hf) in Hadd. discriminate. }
    rewrite (add_present this model s Hf) in Hadd. injection Hadd as <-.
    split.
    + eexists. rewrite numHotwords_eval. simpl. rewrite fn_lookup_insert.
      reflexivity.
    + intros index. rewrite lookup_eval. simpl. rewrite fn_lookup_insert. simpl.
      destruct (index <? 0); [discriminate|].
      destruct (flatten _ _); discriminate.
Qed.

Lemma accessors_throw_before_first_add_witness :
  numHotwords Scenario.registry Scenario.initial = (Throw TypeError, Scenario.initial)
  /\ (forall index,
        lookup Scenario.registry index Scenario.initial
        = (Throw (if index <? 0 then IndexError else TypeError), Scenario.initial))
  /\ (forall model s',
        add Scenario.registry model Scenario.initial = (Return tt, s') ->
        (exists n, numHotwords Scenario.registry s' = (Return n, s'))
        /\ forall index, fst (lookup Scenario.registry index s') <> Throw TypeError).
Proof.
  apply (accessors_throw_before_first_add Scenario.registry Scenario.initial).
  reflexivity.
Defined.



End RegistryFacts.

(** * Properties of the stream *)

Module StreamFacts.
Import SnowboyDetect.

Section WithNative.
Context {engine : Type} {native : SnowboyDetectNativeInterface engine}.

Lemma effects_of_app {A} (c : M (world engine) A) (w : world engine) (t : list effect) :
  trace (snd (c w)) = trace w ++ t -> effects_of c w = t.
Proof. unfold effects_of. intros ->. apply drop_app_length. Qed.

(** Every way through [runDetection]. *)
Lemma runDetection_eval (this : t) (buffer : Buffer) (w : world engine) :
  let i := nativeInstance this in
  let r := RunDetection (natives w i) buffer in
  let w1 := set_native i (snd r) (log (Native i (RunDetection_call buffer)) w) in
  runDetection this buffer w =
    if fst r =? -1 then
      (if (listeners w i "error" =? 0)%nat then Throw ERR_UNHANDLED_ERROR
       else Return (fst r),
       log (Emit "error" []) w1)
    else if fst r =? -2 then (Return (fst r), log (Emit "silence" []) w1)
    else if fst r =? 0 then (Return (fst r), log (Emit "noise" []) w1)
    else match fst (HotwordModels.lookup (models this) (fst r) (store w)) with
         | Return v => (Return (fst r), log (Emit "hotword" [v]) w1)
         | Throw e => (Throw e, w1)
         end.
Proof.
  intros i r w1. subst w1.
  unfold runDetection, native_RunDetection, processDetectionResult, emit, lift,
    mbind, M_bind, modify, gets, throw, mret, M_ret. simpl.
  fold i. fold r.
  unfold DetectionResult.ERROR, DetectionResult.SILENCE, DetectionResult.NOISE.
  destruct (fst r =? -1).
  { change (listeners (set_native _ _ (log _ w)) i "error")
      with (listeners w i "error").
    now destruct (listeners w i "error" =? 0)%nat. }
  destruct (fst r =? -2); [reflexivity|].
  destruct (fst r =? 0); [reflexivity|].
  rewrite !RegistryFacts.lookup_eval. simpl.
  destruct (fst r <? 0); [reflexivity|].
  destruct (HotwordModels.lookupTable _) as [[|label l]|]; reflexivity.
Qed.

Ltac trace_of_log E :=
  apply effects_of_app; rewrite E; simpl; rewrite <- ?app_assoc; reflexivity.

(** C3.  When the detector answers -1, -2 or 0, the effects of the
    detection call are the detector call followed by exactly one event,
    [error], [silence] or [noise] respectively, emitted without arguments.
    For -2 and 0 the call returns the index.  For -1 it returns the index if
    the stream has an [error] listener; on a stream without one the emitter
    throws once the event is emitted. *)
Theorem reserved_codes_emit_bare_events (this : t) (buffer : Buffer) (w : world engine) :
  let i := nativeInstance this in
  let k := fst (RunDetection (natives w i) buffer) in
  (k = -1 ->
     effects_of (runDetection this buffer) w
       = [Native i (RunDetection_call buffer); Emit "error" []]
     /\ fst (runDetection this buffer w)
        = if (listeners w i "error" =? 0)%nat then Throw ERR_UNHANDLED_ERROR
          else Return (-1))
  /\ (k = -2 ->
     effects_of (runDetection this buffer) w
       = [Native i (RunDetection_call buffer); Emit "silence" []]
     /\ fst (runDetection this buffer w) = Return (-2))
  /\ (k = 0 ->
     effects_of (runDetection this buffer) w
       = [Native i (RunDetection_call buffer); Emit "noise" []]
     /\ fst (runDetection this buffer w) = Return 0).
Proof.
  intros i k. subst k.
  split; [|split]; intros Hk; (split; [apply effects_of_app|]);
    rewrite runDetection_eval; fold i; rewrite Hk; simpl;
    rewrite <- ?app_assoc; try reflexivity;
    now destruct (listeners w i "error" =? 0)%nat.
Qed.

(** The three ways a detection call can go: it returns after one event, the
    emitter throws on an [error] event without listener, or [lookup] throws
    before any event. *)
Lemma runDetection_cases (this : t) (buffer : Buffer) (w : world engine) :
  let i := nativeInstance this in
  let k := fst (RunDetection (natives w i) buffer) in
  let forwarded := Native i (RunDetection_call buffer) in
  let found := fst (HotwordModels.lookup (models this) k (store w)) in
  ((k = -1 \/ k = -2 \/ k = 0 \/ exists v, found = Return v)
   /\ fst (runDetection this buffer w) = Return k
   /\ exists name args,
        effects_of (runDetection this buffer) w = [forwarded; Emit name args])
  \/
  (k = -1 /\ listeners w i "error" = 0%nat
   /\ fst (runDetection this buffer w) = Throw ERR_UNHANDLED_ERROR
   /\ effects_of (runDetection this buffer) w = [forwarded; Emit "error" []])
  \/
  (k <> -1 /\ k <> -2 /\ k <> 0
   /\ exists e,
        found = Throw e
        /\ fst (runDetection this buffer w) = Throw e
        /\ effects_of (runDetection this buffer) w = [forwarded]).
Proof.
  intros i k forwarded found.
  pose proof (runDetection_eval this buffer w) as E. simpl in E.
  fold i in E. fold k in E. fold found in E.
  destruct (Z.eqb_spec k (-1)) as [H1|H1].
  { destruct (Nat.eqb_spec (listeners w i "error") 0) as [Hl|Hl].
    - right. left. rewrite E. repeat split; try assumption. trace_of_log E.
    - left. rewrite E. split; [auto|]. split; [now rewrite H1|].
      exists "error", []. trace_of_log E. }
  destruct (Z.eqb_spec k (-2)) as [H2|H2].
  { left. rewrite E. split; [auto|]. split; [reflexivity|].
    exists "silence", []. trace_of_log E. }
  destruct (Z.eqb_spec k 0) as [H0|H0].
  { left. rewrite E. split; [auto|]. split; [reflexivity|].
    exists "noise", []. trace_of_log E. }
  destruct found as [v|e] eqn:Hfound.
  - left. rewrite E. split; [eauto|]. split; [reflexivity|].
    exists "hotword", [v]. trace_of_log E.
  - right. right. repeat split; try assumption.
    exists e. rewrite E. repeat split. trace_of_log E.
Qed.

(** With a label in the table, an index other than -1, -2 and 0 never
    becomes a [hotword] event: the call throws out of [lookup]. *)
Lemma unreserved_index_throws
    (this : t) (buffer : Buffer) (w : world engine) (label : string) (l : list string) :
  let i := nativeInstance this in
  let k := fst (RunDetection (natives w i) buffer) in
  HotwordModels.lookupTable (HotwordModels.registry_heap (store w) (models this))
    = Some (label :: l) ->
  k <> -1 -> k <> -2 -> k <> 0 ->
  fst (runDetection this buffer w) = Throw HotwordModels.IndexError
  /\ effects_of (runDetection this buffer) w = [Native i (RunDetection_call buffer)].
Proof.
  intros i k Ht H1 H2 H0.
  destruct (runDetection_cases this buffer w)
    as [(Hk & _)|[(Hk & _)|(_ & _ & _ & err & Hfound & Hthrow & Heff)]].
  - fold i in Hk. fold k in Hk.
    rewrite (RegistryFacts.lookup_nonempty_table _ _ _ _ Ht) in Hk.
    destruct Hk as [?|[?|[?|[v Hv]]]]; try contradiction. discriminate.
  - fold i in Hk. fold k in Hk. contradiction.
  - fold i in Hfound. fold k in Hfound.
    rewrite (RegistryFacts.lookup_nonempty_table _ _ _ _ Ht) in Hfound.
    simpl in Hfound. injection Hfound as <-. now split.
Qed.

(** Every way through the constructor. *)
Lemma constructor_eval (options : DetectorOptions.t) (w : world engine) :
  let registry := DetectorOptions.models options in
  let res := DetectorOptions.resource options in
  let ms := HotwordModels.modelString registry (store w) in
  let i := next_native w in
  let this := {| nativeInstance := i; models := registry |} in
  let built := log (Construct res ms) w in
  constructor options w =
    match native_new res ms with
    | Throw e => (Throw e, built)
    | Return e =>
        let counted := log (Native i NumHotwords_call) (alloc e built) in
        match HotwordModels.lookupTable
                (HotwordModels.registry_heap (store w) registry) with
        | None => (Throw TypeError, counted)
        | Some l =>
            if negb (NumHotwords e =? Z.of_nat (length l))
            then (Throw ConfigurationMismatchError, counted)
            else
              match DetectorOptions.audioGain options with
              | Some gain =>
                  if truthy_float gain
                  then (Return this,
                        set_native i (SetAudioGain e gain)
                          (log (Native i (SetAudioGain_call gain)) counted))
                  else (Return this, counted)
              | None => (Return this, counted)
              end
        end
    end.
Proof.
  intros registry res ms i this built. subst built this.
  unfold constructor, native_construct, native_NumHotwords, native_SetAudioGain,
    lift, mbind, M_bind, modify, gets, throw, mret, M_ret. simpl.
  fold registry. fold res. fold ms.
  destruct (native_new res ms) as [e|e]; [|reflexivity]. simpl.
  rewrite RegistryFacts.numHotwords_eval. simpl. fold i.
  rewrite fn_lookup_insert.
  destruct (HotwordModels.lookupTable _) as [l|]; [|reflexivity].
  destruct (negb (NumHotwords e =? Z.of_nat (length l))); [reflexivity|].
  destruct (DetectorOptions.audioGain options) as [gain|]; [|reflexivity].
  destruct (truthy_float gain); [|reflexivity].
  simpl. rewrite fn_lookup_insert. reflexivity.
Qed.

(** The hotword count of the detector is read once per construction
    that gets as far as building the detector. *)
Lemma constructor_checks_once (options : DetectorOptions.t) (w : world engine) :
  count_checks (effects_of (constructor options) w)
  = match native_new (DetectorOptions.resource options)
            (HotwordModels.modelString (DetectorOptions.models options) (store w)) with
    | Return _ => 1%nat
    | Throw _ => 0%nat
    end.
Proof.
  pose proof (constructor_eval options w) as E. simpl in E.
  destruct (native_new _ _) as [e|e].
  2: { erewrite effects_of_app; [|rewrite E; simpl; reflexivity]. reflexivity. }
  destruct (HotwordModels.lookupTable _) as [l|].
  2: { erewrite effects_of_app;
         [|rewrite E; simpl; rewrite <- ?app_assoc; reflexivity]. reflexivity. }
  destruct (negb _).
  { erewrite effects_of_app;
      [|rewrite E; simpl; rewrite <- ?app_assoc; reflexivity]. reflexivity. }
  destruct (DetectorOptions.audioGain options) as [gain|];
    [destruct (truthy_float gain)|];
    (erewrite effects_of_app;
      [|rewrite E; simpl; rewrite <- ?app_assoc; reflexivity]); reflexivity.
Qed.

(** C6.  When the detector that was built reports a hotword count other
    than the registry's [numHotwords()], the constructor throws the
    mismatch error; no stream is returned, and up to the throw it has
    built the detector and read its count, nothing else, so no buffer has
    reached the detector.  Every construction reads the count exactly
    once if it gets to build its detector and not at all otherwise, and a
    detection call never reads it and never throws the mismatch error. *)
Theorem count_mismatch_fails_construction
    (options : DetectorOptions.t) (w : world engine) (e : engine) (n : Z) :
  let registry := DetectorOptions.models options in
  let res := DetectorOptions.resource options in
  let ms := HotwordModels.modelString registry (store w) in
  native_new res ms = Return e ->
  fst (HotwordModels.numHotwords registry (store w)) = Return n ->
  NumHotwords e <> n ->
  (fst (constructor options w) = Throw ConfigurationMismatchError
   /\ effects_of (constructor options) w
      = [Construct res ms; Native (next_native w) NumHotwords_call])
  /\ (forall options' w',
        count_checks (effects_of (constructor options') w')
        = match native_new (DetectorOptions.resource options')
                  (HotwordModels.modelString (DetectorOptions.models options')
                                             (store w')) with
          | Return _ => 1%nat
          | Throw _ => 0%nat
          end)
  /\ (forall this buffer w',
        count_checks (effects_of (runDetection this buffer) w') = 0%nat
        /\ fst (runDetection this buffer w') <> Throw ConfigurationMismatchError).
Proof.
  intros registry res ms Hnew Hcount Hne. split; [|split].
  - pose proof (constructor_eval options w) as E. simpl in E.
    fold registry in E. fold res in E. fold ms in E. rewrite Hnew in E.
    rewrite RegistryFacts.numHotwords_eval in Hcount. simpl in Hcount.
    destruct (HotwordModels.lookupTable _) as [l|]; [|discriminate].
    injection Hcount as <-.
    destruct (Z.eqb_spec (NumHotwords e) (Z.of_nat (length l))) as [Heq|_];
      [contradiction|]. simpl in E.
    split; [now rewrite E|trace_of_log E].
  - intros options' w'. apply constructor_checks_once.
  - intros this buffer w'.
    destruct (runDetection_cases this buffer w')
      as [(_ & Hret & name & args & Heff)
         |[(_ & _ & Hthrow & Heff)|(_ & _ & _ & err & Hfound & Hthrow & Heff)]].
    + rewrite Heff, Hret. split; [reflexivity|discriminate].
    + rewrite Heff, Hthrow. split; [reflexivity|discriminate].
    + rewrite Heff, Hthrow. split; [reflexivity|].
      rewrite RegistryFacts.lookup_eval in Hfound. simpl in Hfound.
      intros Habs. injection Habs as ->.
      destruct (_ <? 0); [discriminate|].
      destruct (HotwordModels.lookupTable _) as [[|label l]|]; discriminate.
Qed.

(** C7, as the code has it.  Every detection call first hands the buffer
    to the detector.  If the index is -2 or 0, or is -1 on a stream with an
    [error] listener, or [lookup] returns for it, the call emits exactly one
    event and returns the index.  If the index is -1 and the stream has no
    [error] listener, the call emits the [error] event and the emitter
    throws, so nothing is returned.  If [lookup] throws, the call throws the
    same error, having emitted no event, and returns nothing.  No call emits
    more than one event. *)
Theorem detection_call_shape (this : t) (buffer : Buffer) (w : world engine) :
  let i := nativeInstance this in
  let k := fst (RunDetection (natives w i) buffer) in
  let forwarded := Native i (RunDetection_call buffer) in
  let found := fst (HotwordModels.lookup (models this) k (store w)) in
  (exists event,
     (k = -1 /\ listeners w i "error" <> 0%nat /\ event = Emit "error" []
      \/ k = -2 /\ event = Emit "silence" []
      \/ k = 0 /\ event = Emit "noise" []
      \/ k <> -1 /\ k <> -2 /\ k <> 0
         /\ exists v, found = Return v /\ event = Emit "hotword" [v])
     /\ fst (runDetection this buffer w) = Return k
     /\ effects_of (runDetection this buffer) w = [forwarded; event])
  \/
  (k = -1 /\ listeners w i "error" = 0%nat
   /\ fst (runDetection this buffer w) = Throw ERR_UNHANDLED_ERROR
   /\ effects_of (runDetection this buffer) w = [forwarded; Emit "error" []])
  \/
  (k <> -1 /\ k <> -2 /\ k <> 0
   /\ exists e,
        found = Throw e
        /\ fst (runDetection this buffer w) = Throw e
        /\ effects_of (runDetection this buffer) w = [forwarded]).
Proof.
  intros i k forwarded found.
  pose proof (runDetection_eval this buffer w) as E. simpl in E.
  fold i in E. fold k in E. fold found in E.
  destruct (Z.eqb_spec k (-1)) as [H1|H1].
  { destruct (Nat.eqb_spec (listeners w i "error") 0) as [Hl|Hl].
    - right. left. rewrite E. repeat split; try assumption. trace_of_log E.
    - left. exists (Emit "error" []). rewrite E.
      split; [auto|]. split; [reflexivity|trace_of_log E]. }
  destruct (Z.eqb_spec k (-2)) as [H2|H2].
  { left. exists (Emit "silence" []). rewrite E.
    split; [auto|]. split; [reflexivity|trace_of_log E]. }
  destruct (Z.eqb_spec k 0) as [H0|H0].
  { left. exists (Emit "noise" []). rewrite E.
    split; [auto|]. split; [reflexivity|trace_of_log E]. }
  destruct found as [v|e] eqn:Hfound.
  - left. exists (Emit "hotword" [v]). rewrite E.
    split; [right; right; right; eauto 6|]. split; [reflexivity|trace_of_log E].
  - right. right. repeat split; try assumption.
    exists e. rewrite E. repeat split. trace_of_log E.
Qed.

(** C8, as the code has it.  When the options carry a gain that is
    truthy (neither 0 nor NaN) and construction gets past the count
    check, the constructor calls [SetAudioGain] with exactly that gain,
    once, as its last effect, on the detector of the stream it returns. *)
Theorem truthy_gain_is_applied
    (options : DetectorOptions.t) (w : world engine) (e : engine) (gain : float) :
  let registry := DetectorOptions.models options in
  let res := DetectorOptions.resource options in
  let ms := HotwordModels.modelString registry (store w) in
  let i := next_native w in
  DetectorOptions.audioGain options = Some gain ->
  truthy_float gain = true ->
  native_new res ms = Return e ->
  fst (HotwordModels.numHotwords registry (store w)) = Return (NumHotwords e) ->
  fst (constructor options w) = Return {| nativeInstance := i; models := registry |}
  /\ effects_of (constructor options) w
     = [Construct res ms; Native i NumHotwords_call; Native i (SetAudioGain_call gain)]
  /\ natives (snd (constructor options w)) i = SetAudioGain e gain.
Proof.
  intros registry res ms i Hgain Htruthy Hnew Hcount.
  pose proof (constructor_eval options w) as E. simpl in E.
  fold registry in E. fold res in E. fold ms in E. fold i in E.
  rewrite Hnew, Hgain, Htruthy in E.
  rewrite RegistryFacts.numHotwords_eval in Hcount. simpl in Hcount.
  destruct (HotwordModels.lookupTable _) as [l|]; [|discriminate].
  injection Hcount as Hc. rewrite <- Hc, Z.eqb_refl in E. simpl in E.
  split; [now rewrite E|]. split; [trace_of_log E|].
  rewrite E. simpl. apply fn_lookup_insert.
Qed.

End WithNative.

(** C1.  A positive index [k] is meant to be emitted as the [hotword]
    event carrying the label at position [k - 1] of the table.  On the
    table [alexa, ok_google, hey_google] with the detector answering 2,
    position 1 holds [ok_google], but the call throws the out-of-bounds
    error and emits no event. *)
Theorem hotword_index_is_rejected :
  let w := Scenario.listening Scenario.loaded [2] in
  let run := runDetection (native := Scenario.detector) Scenario.stream [] in
  fst (RunDetection (SnowboyDetectNativeInterface := Scenario.detector)
         (natives w 0%nat) []) = 2
  /\ HotwordModels.lookupTable
       (HotwordModels.registry_heap Scenario.loaded Scenario.registry)
     = Some ["alexa"; "ok_google"; "hey_google"]
  /\ ["alexa"; "ok_google"; "hey_google"] !! Z.to_nat (2 - 1) = Some "ok_google"
  /\ fst (run w) = Throw HotwordModels.IndexError
  /\ effects_of run w = [Native 0%nat (RunDetection_call [])].
Proof. repeat split. Qed.

Lemma reserved_codes_emit_bare_events_witness :
  let run := runDetection (native := Scenario.detector) Scenario.stream [] in
  (effects_of run (Scenario.attended Scenario.loaded [-1])
     = [Native 0%nat (RunDetection_call []); Emit "error" []]
   /\ fst (run (Scenario.attended Scenario.loaded [-1])) = Return (-1))
  /\ (effects_of run (Scenario.listening Scenario.loaded [-1])
       = [Native 0%nat (RunDetection_call []); Emit "error" []]
     /\ fst (run (Scenario.listening Scenario.loaded [-1]))
        = Throw ERR_UNHANDLED_ERROR)
  /\ (effects_of run (Scenario.listening Scenario.loaded [-2])
       = [Native 0%nat (RunDetection_call []); Emit "silence" []]
     /\ fst (run (Scenario.listening Scenario.loaded [-2])) = Return (-2))
  /\ (effects_of run (Scenario.listening Scenario.loaded [0])
       = [Native 0%nat (RunDetection_call []); Emit "noise" []]
     /\ fst (run (Scenario.listening Scenario.loaded [0])) = Return 0).
Proof.
  split; [|split; [|split]].
  - apply (proj1 (reserved_codes_emit_bare_events (native := Scenario.detector)
                    Scenario.stream [] (Scenario.attended Scenario.loaded [-1]))).
    reflexivity.
  - apply (proj1 (reserved_codes_emit_bare_events (native := Scenario.detector)
                    Scenario.stream [] (Scenario.listening Scenario.loaded [-1]))).
    reflexivity.
  - apply (proj1 (proj2 (reserved_codes_emit_bare_events (native := Scenario.detector)
                    Scenario.stream [] (Scenario.listening Scenario.loaded [-2])))).
    reflexivity.
  - apply (proj2 (proj2 (reserved_codes_emit_bare_events (native := Scenario.detector)
                    Scenario.stream [] (Scenario.listening Scenario.loaded [0])))).
    reflexivity.
Defined.

Lemma count_mismatch_fails_construction_witness :
  let build := constructor (native := Scenario.short_detector) (Scenario.options None) in
  fst (build (Scenario.world_of Scenario.loaded)) = Throw ConfigurationMismatchError
  /\ effects_of build (Scenario.world_of Scenario.loaded)
     = [Construct "common.res" "alexa.umdl,google.pmdl"; Native 0%nat NumHotwords_call].
Proof.
  apply (proj1 (count_mismatch_fails_construction (native := Scenario.short_detector)
                  (Scenario.options None) (Scenario.world_of Scenario.loaded)
                  (Scripted.mk 2 [] None) 3
                  eq_refl eq_refl ltac:(discriminate))).
Defined.

(** The one way a [hotword] event leaves the stream: the table is empty,
    the index is not negative, and the event carries [undefined]. *)
Example hotword_event_without_label :
  let run := runDetection (native := Scenario.detector) Scenario.stream [] in
  HotwordModels.lookupTable
    (HotwordModels.registry_heap Scenario.silent Scenario.registry) = Some []
  /\ fst (run (Scenario.listening Scenario.silent [1])) = Return 1
  /\ effects_of run (Scenario.listening Scenario.silent [1])
     = [Native 0%nat (RunDetection_call []); Emit "hotword" [undefined]].
Proof. repeat split. Qed.

(** C7 as the specification words it fails where the index is out of
    range: with three labels in the table and the detector answering 4, the
    call throws and emits nothing. *)
Lemma out_of_range_index_emits_nothing :
  ~ one_event_per_call (native := Scenario.detector)
      Scenario.stream [] (Scenario.listening Scenario.loaded [4]).
Proof.
  intros (name & args & Hret & _). vm_compute in Hret. discriminate.
Qed.

(** C8 as the specification words it fails at the gain 0: the constructor
    returns a stream without having called [SetAudioGain]. *)
Lemma zero_gain_is_not_applied :
  let build := constructor (native := Scenario.detector) (Scenario.options (Some 0%float)) in
  fst (build (Scenario.world_of Scenario.loaded))
    = Return {| nativeInstance := 0%nat; models := Scenario.registry |}
  /\ effects_of build (Scenario.world_of Scenario.loaded)
     = [Construct "common.res" "alexa.umdl,google.pmdl"; Native 0%nat NumHotwords_call]
  /\ ~ gain_applied (native := Scenario.detector)
        (Scenario.options (Some 0%float)) 0%float (Scenario.world_of Scenario.loaded).
Proof.
  split; [reflexivity|]. split; [reflexivity|].
  intros (this & _ & Hin).
  change (effects_of _ _)
    with [Construct "common.res" "alexa.umdl,google.pmdl"; Native 0%nat NumHotwords_call]
    in Hin.
  destruct Hin as [Hin|[Hin|[]]]; discriminate.
Qed.

Lemma truthy_gain_is_applied_witness :
  let build := constructor (native := Scenario.detector) (Scenario.options (Some 2%float)) in
  fst (build (Scenario.world_of Scenario.loaded))
    = Return {| nativeInstance := 0%nat; models := Scenario.registry |}
  /\ effects_of build (Scenario.world_of Scenario.loaded)
     = [Construct "common.res" "alexa.umdl,google.pmdl"; Native 0%nat NumHotwords_call;
        Native 0%nat (SetAudioGain_call 2%float)]
  /\ natives (snd (build (Scenario.world_of Scenario.loaded))) 0%nat
     = Scripted.mk 3 [] (Some 2%float).
Proof.
  apply (truthy_gain_is_applied (native := Scenario.detector)
           (Scenario.options (Some 2%float)) (Scenario.world_of Scenario.loaded)
           (Scripted.mk 3 [] None) 2%float
           eq_refl eq_refl eq_refl eq_refl).
Defined.

End StreamFacts.

(** * Further properties of the registry *)

Module RegistryUse.
Import HotwordModels Usage.


(** [add] never writes to the file system. *)
Lemma add_keeps_disk (this model : loc) (s : store) :
  existsSync (snd (add this model s)) = existsSync s.
Proof.
  destruct (existsSync s (file (model_heap s model))) eqn:Hf.
  - now rewrite (RegistryFacts.add_present this model s Hf).
  - now rewrite (RegistryFacts.add_missing this model s Hf).
Qed.

Lemma add_keeps_on_disk (this model r : loc) (s : store) :
  on_disk (snd (add this model s)) r = on_disk s r.
Proof.
  unfold on_disk. rewrite add_keeps_disk.
  now rewrite (proj1 (RegistryFacts.add_keeps_file this model r s)).
Qed.

(** One step of [add_all]. *)
Lemma add_all_cons (this m : loc) (ms : list loc) (s : store) :
  add_all this (m :: ms) s =
    if on_disk s m then add_all this ms (snd (add this m s))
    else (Throw (ValidationError (file (model_heap s m))), snd (add this m s)).
Proof.
  unfold on_disk. simpl. unfold mbind, M_bind.
  destruct (existsSync s (file (model_heap s m))) eqn:Hf.
  - now rewrite (RegistryFacts.add_present this m s Hf).
  - now rewrite (RegistryFacts.add_missing this m s Hf).
Qed.

(** What a run of adds leaves of the model objects and of the disk,
    however it ends. *)
Lemma add_all_keeps (this : loc) (ms : list loc) :
  forall s r,
    file (model_heap (snd (add_all this ms s)) r) = file (model_heap s r)
    /\ sensitivity (model_heap (snd (add_all this ms s)) r)
       = sensitivity (model_heap s r)
    /\ labels (hotwords (model_heap (snd (add_all this ms s)) r))
       = labels (hotwords (model_heap s r))
    /\ on_disk (snd (add_all this ms s)) r = on_disk s r.
Proof.
  induction ms as [|m ms IH]; intros s r; [now repeat split|].
  rewrite add_all_cons.
  pose proof (RegistryFacts.add_keeps_file this m r s) as [Hfile Hsens].
  pose proof (RegistryFacts.add_keeps_labels this m r s) as Hlab.
  pose proof (add_keeps_on_disk this m r s) as Hdisk.
  destruct (on_disk s m).
  - destruct (IH (snd (add this m s)) r) as (H1 & H2 & H3 & H4).
    repeat split; congruence.
  - simpl. repeat split; assumption.
Qed.

(** The registry that a successful [add] leaves. *)
Lemma add_on_disk (this model : loc) (s : store) :
  on_disk s model = true ->
  models (registry_heap (snd (add this model s)) this)
    = models (registry_heap s this) ++ [model]
  /\ in_sync this (snd (add this model s)).
Proof.
  intros Hf. unfold in_sync.
  rewrite (RegistryFacts.add_present this model s Hf). simpl.
  rewrite !fn_lookup_insert. simpl. now split.
Qed.





(** X3.  A run of adds returns exactly when the file of every model in it
    is on disk. *)
Theorem add_all_returns_iff (this : loc) (ms : list loc) (s : store) :
  fst (add_all this ms s) = Return tt
  <-> Forall (fun r => on_disk s r = true) ms.
Proof.
  revert s. induction ms as [|m ms IH]; intros s.
  - split; [constructor|reflexivity].
  - rewrite add_all_cons. destruct (on_disk s m) eqn:Hm.
    + rewrite IH. split.
      * intros Hall. constructor; [exact Hm|].
        eapply Forall_impl; [exact Hall|]. intros r.
        simpl. now rewrite add_keeps_on_disk.
      * intros Hall. inversion Hall as [|? ? _ Hrest]; subst.
        eapply Forall_impl; [exact Hrest|]. intros r.
        simpl. now rewrite add_keeps_on_disk.
    + split; [discriminate|].
      intros Hall. inversion Hall; congruence.
Qed.

(** X4.  A run of adds that meets a missing file stops there and does not
    roll back: it throws the validation error of that model, the models
    before it stay added, in order, with the table rebuilt for them, and
    neither the failing model nor those after it are added. *)
Theorem add_all_stops_at_missing (this bad : loc) (ms1 ms2 : list loc) (s : store) :
  Forall (fun r => on_disk s r = true) ms1 ->
  on_disk s bad = false ->
  fst (add_all this (ms1 ++ bad :: ms2) s)
    = Throw (ValidationError (file (model_heap s bad)))
  /\ models (registry_heap (snd (add_all this (ms1 ++ bad :: ms2) s)) this)
     = models (registry_heap s this) ++ ms1
  /\ (ms1 <> [] -> in_sync this (snd (add_all this (ms1 ++ bad :: ms2) s))).
Proof.
  revert s. induction ms1 as [|m ms1 IH]; intros s Hall Hbad.
  - simpl app. rewrite add_all_cons, Hbad. simpl.
    unfold on_disk in Hbad.
    rewrite (RegistryFacts.add_missing this bad s Hbad). simpl.
    rewrite app_nil_r. repeat split. intros Hne. now contradiction Hne.
  - inversion Hall as [|? ? Hm Hrest]; subst.
    simpl app. rewrite add_all_cons, Hm.
    set (s1 := snd (add this m s)).
    assert (Hall1 : Forall (fun r => on_disk s1 r = true) ms1).
    { eapply Forall_impl; [exact Hrest|]. intros r. simpl.
      unfold s1. now rewrite add_keeps_on_disk. }
    assert (Hbad1 : on_disk s1 bad = false).
    { unfold s1. now rewrite add_keeps_on_disk. }
    destruct (IH s1 Hall1 Hbad1) as (Hthrow & Hmodels & Hsync).
    destruct (add_on_disk this m s Hm) as (Hm1 & Hsync1).
    fold s1 in Hm1, Hsync1.
    split; [|split].
    + rewrite Hthrow. unfold s1.
      now rewrite (proj1 (RegistryFacts.add_keeps_file this m bad s)).
    + rewrite Hmodels, Hm1, <- app_assoc. reflexivity.
    + intros _. destruct ms1 as [|m' ms1]; [|apply Hsync; discriminate].
      simpl app in *. rewrite add_all_cons, Hbad1. simpl.
      unfold on_disk in Hbad1.
      unfold in_sync in *.
      rewrite (RegistryFacts.add_missing this bad s1 Hbad1). simpl.
      rewrite Hsync1. f_equal. apply RegistryFacts.flatten_ext. intros r.
      simpl. unfold insert, fn_insert.
      destruct (decide (bad = r)) as [->|]; reflexivity.
Qed.

Lemma add_all_stops_at_missing_witness :
  fst (add_all Scenario.registry [0%nat; 2%nat; 1%nat] Scenario.initial)
    = Throw (ValidationError "missing.pmdl")
  /\ models (registry_heap
               (snd (add_all Scenario.registry [0%nat; 2%nat; 1%nat] Scenario.initial))
               Scenario.registry) = [0%nat]
  /\ lookupTable (registry_heap
                    (snd (add_all Scenario.registry [0%nat; 2%nat; 1%nat] Scenario.initial))
                    Scenario.registry) = Some ["alexa"].
Proof.
  destruct (add_all_stops_at_missing Scenario.registry 2%nat [0%nat] [1%nat]
              Scenario.initial) as (Hthrow & Hmodels & Hsync).
  - repeat constructor.
  - reflexivity.
  - split; [exact Hthrow|]. split; [exact Hmodels|].
    rewrite (Hsync ltac:(discriminate)). reflexivity.
Defined.

(** X5.  After a run of successful adds on a fresh registry, [modelString]
    is the files of the added models joined by commas in insertion order,
    and [sensitivityString] is their sensitivities joined the same way, a
    model without sensitivity giving an empty entry; with no model added
    both are the empty string. *)
Theorem strings_after_adds (this : loc) (ms : list loc) (s s' : store) :
  registry_heap s this = empty ->
  add_all this ms s = (Return tt, s') ->
  modelString this s'
    = String.concat "," (map (fun r => file (model_heap s r)) ms)
  /\ sensitivityString this s'
     = String.concat "," (map (fun r => default "" (sensitivity (model_heap s r))) ms).
Proof.
  intros Hfresh Hrun.
  destruct (RegistryFacts.add_all_inv this ms s s' Hrun) as (Hm & _ & _).
  rewrite Hfresh in Hm. simpl in Hm.
  pose proof (add_all_keeps this ms s) as Hk. rewrite Hrun in Hk. simpl in Hk.
  unfold modelString, sensitivityString, join. rewrite Hm, !map_map.
  split; f_equal; apply map_ext; intros r.
  - now rewrite (proj1 (Hk r)).
  - rewrite (proj1 (proj2 (Hk r))). now destruct (sensitivity (model_heap s r)).
Qed.

Lemma strings_after_adds_witness :
  modelString Scenario.registry Scenario.loaded = "alexa.umdl,google.pmdl"
  /\ sensitivityString Scenario.registry Scenario.loaded = "0.5,".
Proof.
  apply (strings_after_adds Scenario.registry [0%nat; 1%nat]
           Scenario.initial Scenario.loaded); reflexivity.
Defined.

(** X6.  [lookup] only reads: it leaves the store as it was.  It never
    returns a label: it returns [undefined] exactly when the index is not
    negative and the table is the empty array, and throws in every other
    case; a negative index is rejected with the out-of-bounds error even
    while the table is unassigned. *)
Theorem lookup_never_yields_label (this : loc) (index : Z) (s : store) :
  snd (lookup this index s) = s
  /\ (forall label, fst (lookup this index s) <> Return (str label))
  /\ (fst (lookup this index s) = Return undefined
      <-> 0 <= index /\ lookupTable (registry_heap s this) = Some [])
  /\ (index < 0 -> fst (lookup this index s) = Throw IndexError).
Proof.
  rewrite RegistryFacts.lookup_eval. simpl.
  destruct (Z.ltb_spec index 0) as [Hneg|Hpos].
  - repeat split; try discriminate; try lia;
      try (intros [Hge _]; lia).
  - destruct (lookupTable (registry_heap s this)) as [[|label l]|];
      repeat split; try discriminate; try lia;
      try (intros [_ Habs]; discriminate).
Qed.

Lemma lookup_never_yields_label_witness :
  fst (lookup Scenario.registry (-1) Scenario.initial) = Throw IndexError.
Proof.
  apply (lookup_never_yields_label Scenario.registry (-1) Scenario.initial).
  reflexivity.
Defined.

(** X7.  Being in sync is kept by every [add], on this registry or on
    another one that shares model objects with it, whether the call returns
    or throws: rewriting [hotwords] into its list form does not change the
    labels, and a successful add rebuilds the table. *)
Theorem add_keeps_sync (this that model : loc) (s : store) :
  in_sync this s -> in_sync this (snd (add that model s)).
Proof.
  intros Hsync.
  assert (Hflat : forall ms, flatten (snd (add that model s)) ms = flatten s ms).
  { intros ms. apply RegistryFacts.flatten_ext. intros r.
    apply RegistryFacts.add_keeps_labels. }
  destruct (on_disk s model) eqn:Hf.
  - destruct (decide (that = this)) as [->|Hne].
    + apply (add_on_disk this model s Hf).
    + unfold in_sync in *. rewrite Hflat. unfold on_disk in Hf.
      rewrite (RegistryFacts.add_present that model s Hf). simpl.
      now rewrite !fn_lookup_insert_ne by congruence.
  - unfold in_sync in *. rewrite Hflat. unfold on_disk in Hf.
    now rewrite (RegistryFacts.add_missing that model s Hf).
Qed.

Lemma add_keeps_sync_witness :
  in_sync Scenario.registry (snd (add 5%nat 1%nat Scenario.loaded)).
Proof.
  apply (add_keeps_sync Scenario.registry 5%nat 1%nat Scenario.loaded).
  reflexivity.
Defined.

End RegistryUse.

(** * Further properties of the stream *)

Module StreamUse.
Import SnowboyDetect Usage.

Section WithNative.
Context {engine : Type} {native : SnowboyDetectNativeInterface engine}.

Ltac effects_from E :=
  apply StreamFacts.effects_of_app; rewrite E; simpl; rewrite <- ?app_assoc;
  reflexivity.

(** X8.  When the native constructor throws, the stream constructor throws
    the same error: nothing but the attempt is recorded, no detector is
    allocated and the registry is not read any further. *)
Theorem constructor_propagates_native_failure
    (options : DetectorOptions.t) (w : world engine) (err : exn) :
  let registry := DetectorOptions.models options in
  let res := DetectorOptions.resource options in
  let ms := HotwordModels.modelString registry (store w) in
  native_new res ms = Throw err ->
  constructor options w = (Throw err, log (Construct res ms) w).
Proof.
  intros registry res ms Hnew.
  pose proof (StreamFacts.constructor_eval options w) as E. simpl in E.
  fold registry in E. fold res in E. fold ms in E.
  now rewrite Hnew in E.
Qed.

(** X9.  Over a registry whose table was never assigned the constructor
    cannot compare the counts: it builds the detector, reads its count, and
    then throws a [TypeError], whatever that count is. *)
Theorem constructor_needs_assigned_table
    (options : DetectorOptions.t) (w : world engine) (e : engine) :
  let registry := DetectorOptions.models options in
  let res := DetectorOptions.resource options in
  let ms := HotwordModels.modelString registry (store w) in
  HotwordModels.lookupTable (HotwordModels.registry_heap (store w) registry) = None ->
  native_new res ms = Return e ->
  fst (constructor options w) = Throw TypeError
  /\ effects_of (constructor options) w
     = [Construct res ms; Native (next_native w) NumHotwords_call].
Proof.
  intros registry res ms Hnone Hnew.
  pose proof (StreamFacts.constructor_eval options w) as E. simpl in E.
  fold registry in E. fold res in E. fold ms in E.
  rewrite Hnew, Hnone in E. split; [now rewrite E|effects_from E].
Qed.

(** X10.  The constructor returns a stream only if the detector it built
    reports the very count that the registry's [numHotwords()] returns.  The
    stream then holds the new detector and the registry it was given; the
    registry's store and every other detector are as before. *)
Theorem constructor_returns_only_on_agreement
    (options : DetectorOptions.t) (w w' : world engine) (this : t) :
  let registry := DetectorOptions.models options in
  let res := DetectorOptions.resource options in
  let ms := HotwordModels.modelString registry (store w) in
  constructor options w = (Return this, w') ->
  exists e,
    native_new res ms = Return e
    /\ fst (HotwordModels.numHotwords registry (store w)) = Return (NumHotwords e)
    /\ this = {| nativeInstance := next_native w; models := registry |}
    /\ store w' = store w
    /\ next_native w' = S (next_native w)
    /\ (forall j, j <> next_native w -> natives w' j = natives w j).
Proof.
  intros registry res ms Hrun.
  pose proof (StreamFacts.constructor_eval options w) as E. simpl in E.
  fold registry in E. fold res in E. fold ms in E. rewrite Hrun in E.
  rewrite RegistryFacts.numHotwords_eval. simpl.
  destruct (native_new res ms) as [e|err]; [|discriminate].
  exists e. split; [reflexivity|].
  destruct (HotwordModels.lookupTable _) as [l|]; [|discriminate].
  destruct (Z.eqb_spec (NumHotwords e) (Z.of_nat (length l))) as [Heq|Hne];
    [|discriminate]. simpl in E.
  split; [now rewrite Heq|].
  destruct (DetectorOptions.audioGain options) as [gain|];
    [destruct (truthy_float gain)|];
    injection E as -> ->; simpl; repeat split;
    intros j Hj; now rewrite ?fn_lookup_insert_ne by congruence.
Qed.

(** X11.  A gain of 0 or NaN in the options is the same as no gain: the
    constructor runs exactly as it does without [audioGain]. *)
Theorem falsy_gain_is_no_gain
    (resource : string) (registry : loc) (gain : float) (w : world engine) :
  truthy_float gain = false ->
  constructor (DetectorOptions.mk resource registry (Some gain)) w
  = constructor (DetectorOptions.mk resource registry None) w.
Proof.
  intros Hfalsy. rewrite !StreamFacts.constructor_eval. simpl.
  now rewrite Hfalsy.
Qed.

(** X12.  A truthy gain in the options is the same as constructing without
    it and calling [setAudioGain] on the stream right away. *)
Theorem truthy_gain_is_setAudioGain
    (resource : string) (registry : loc) (gain : float) (w : world engine) :
  truthy_float gain = true ->
  constructor (DetectorOptions.mk resource registry (Some gain)) w
  = (this ← constructor (DetectorOptions.mk resource registry None);
     setAudioGain this gain;;
     mret this) w.
Proof.
  intros Htruthy. unfold mbind at 1 2. unfold M_bind.
  rewrite !StreamFacts.constructor_eval. simpl. rewrite Htruthy.
  destruct (native_new _ _) as [e|err]; [|reflexivity].
  destruct (HotwordModels.lookupTable _) as [l|]; [|reflexivity].
  destruct (negb _); [reflexivity|].
  unfold setAudioGain, native_SetAudioGain, mbind, M_bind, modify, mret, M_ret.
  simpl. now rewrite fn_lookup_insert.
Qed.

(** X13.  Every detection call consumes its buffer: the detector is left in
    the state that [RunDetection] produced, also when the call throws.  The
    call touches no other detector and writes nothing to the registry's
    store. *)
Theorem runDetection_consumes_buffer (this : t) (buffer : Buffer) (w : world engine) :
  let i := nativeInstance this in
  natives (snd (runDetection this buffer w)) i
    = snd (RunDetection (natives w i) buffer)
  /\ (forall j, j <> i -> natives (snd (runDetection this buffer w)) j = natives w j)
  /\ store (snd (runDetection this buffer w)) = store w
  /\ next_native (snd (runDetection this buffer w)) = next_native w.
Proof.
  intros i. rewrite StreamFacts.runDetection_eval. fold i.
  destruct (_ =? -1); [|destruct (_ =? -2); [|destruct (_ =? 0);
    [|destruct (fst (HotwordModels.lookup _ _ _))]]];
    simpl; (split; [apply fn_lookup_insert|]);
    (split; [intros j Hj; apply fn_lookup_insert_ne; congruence|]);
    now split.
Qed.

(** X15.  The constructor returns a stream exactly when the native
    constructor returns a detector and the registry's [numHotwords()]
    returns that detector's count; the gain option plays no part in it. *)
Theorem constructor_returns_iff_agreement (options : DetectorOptions.t) (w : world engine) :
  let registry := DetectorOptions.models options in
  let res := DetectorOptions.resource options in
  let ms := HotwordModels.modelString registry (store w) in
  (exists this, fst (constructor options w) = Return this)
  <-> (exists e,
         native_new res ms = Return e
         /\ fst (HotwordModels.numHotwords registry (store w))
            = Return (NumHotwords e)).
Proof.
  intros registry res ms.
  rewrite StreamFacts.constructor_eval, RegistryFacts.numHotwords_eval. simpl.
  fold registry. fold res. fold ms.
  destruct (native_new res ms) as [e|err].
  2: { split; [intros [this Habs]|intros (e & Habs & _)]; discriminate. }
  destruct (HotwordModels.lookupTable _) as [l|].
  2: { split; [intros [this Habs]|intros (e' & _ & Habs)]; discriminate. }
  destruct (Z.eqb_spec (NumHotwords e) (Z.of_nat (length l))) as [Heq|Hne]; simpl.
  - split.
    + intros _. exists e. now rewrite Heq.
    + intros _. destruct (DetectorOptions.audioGain options) as [gain|];
        [destruct (truthy_float gain)|]; eauto.
  - split; [intros [this Habs]; discriminate|].
    intros (e' & He' & Hcount). congruence.
Qed.

Lemma count_emits_app (t1 t2 : list effect) :
  count_emits (t1 ++ t2) = (count_emits t1 + count_emits t2)%nat.
Proof. unfold count_emits. now rewrite List.filter_app, length_app. Qed.

Lemma count_detections_app (t1 t2 : list effect) :
  count_detections (t1 ++ t2) = (count_detections t1 + count_detections t2)%nat.
Proof. unfold count_detections. now rewrite List.filter_app, length_app. Qed.

(** One call: one detector run, and one event unless [lookup] throws. *)
Lemma runDetection_trace (this : t) (buffer : Buffer) (w : world engine) :
  exists t1,
    trace (snd (runDetection this buffer w)) = trace w ++ t1
    /\ count_detections t1 = 1%nat
    /\ count_emits t1 = match fst (runDetection this buffer w) with
                        | Return _ => 1%nat
                        | Throw ERR_UNHANDLED_ERROR => 1%nat
                        | Throw _ => 0%nat
                        end.
Proof.
  rewrite StreamFacts.runDetection_eval, RegistryFacts.lookup_eval. simpl.
  destruct (_ =? -1);
    [destruct (listeners _ _ _ =? 0)%nat
    |destruct (_ =? -2);
      [|destruct (_ =? 0);
        [|destruct (_ <? 0);
          [|destruct (HotwordModels.lookupTable _) as [[|label l]|]]]]];
    simpl; rewrite <- ?app_assoc; eexists; (split; [reflexivity|]); now split.
Qed.

Lemma feed_trace (this : t) (buffers : list Buffer) :
  forall w,
    exists tr,
      trace (snd (feed this buffers w)) = trace w ++ tr
      /\ match fst (feed this buffers w) with
         | Return indices =>
             length indices = length buffers
             /\ count_detections tr = length buffers
             /\ count_emits tr = length buffers
         | Throw ERR_UNHANDLED_ERROR =>
             (count_detections tr <= length buffers)%nat
             /\ count_detections tr = count_emits tr
         | Throw _ =>
             (count_detections tr <= length buffers)%nat
             /\ count_detections tr = S (count_emits tr)
         end.
Proof.
  induction buffers as [|buffer rest IH]; intros w.
  - exists []. simpl. now rewrite app_nil_r.
  - destruct (runDetection_trace this buffer w) as (t1 & Ht1 & Hd1 & He1).
    simpl feed. unfold mbind, M_bind.
    destruct (runDetection this buffer w) as [[k|err] w1]; simpl in *.
    + destruct (IH w1) as (t2 & Ht2 & Hres).
      destruct (feed this rest w1) as [[ks|[]] w2]; simpl in *;
        exists (t1 ++ t2);
        rewrite Ht2, Ht1, <- app_assoc, count_detections_app, count_emits_app;
        (split; [reflexivity|]); lia.
    + exists t1. split; [exact Ht1|]. destruct err; lia.
Qed.

(** X14.  Feeding buffers one after the other runs the detector once per
    buffer and emits at most one event per buffer.  When the run returns
    there are as many indices, detector runs and events as buffers.  When a
    call throws the run ends there and every earlier buffer has its event;
    the failing buffer has its [error] event too if the emitter threw for
    want of an [error] listener, and has no event if [lookup] threw. *)
Theorem feed_emits_one_event_per_buffer
    (this : t) (buffers : list Buffer) (w : world engine) :
  match fst (feed this buffers w) with
  | Return indices =>
      length indices = length buffers
      /\ count_detections (effects_of (feed this buffers) w) = length buffers
      /\ count_emits (effects_of (feed this buffers) w) = length buffers
  | Throw ERR_UNHANDLED_ERROR =>
      (count_detections (effects_of (feed this buffers) w) <= length buffers)%nat
      /\ count_detections (effects_of (feed this buffers) w)
         = count_emits (effects_of (feed this buffers) w)
  | Throw _ =>
      (count_detections (effects_of (feed this buffers) w) <= length buffers)%nat
      /\ count_detections (effects_of (feed this buffers) w)
         = S (count_emits (effects_of (feed this buffers) w))
  end.
Proof.
  destruct (feed_trace this buffers w) as (tr & Htr & Hres).
  now rewrite (StreamFacts.effects_of_app _ _ _ Htr).
Qed.

End WithNative.

(** Three buffers answered with -2, -1 and 0 on a stream without
    [error] listener: the second call emits its event and the emitter throws,
    so the third buffer never reaches the detector.  With an [error]
    listener attached all three indices come back. *)
Example feed_without_error_listener :
  let run := feed (native := Scenario.detector) Scenario.stream [[]; []; []] in
  fst (run (Scenario.listening Scenario.loaded [-2; -1; 0])) = Throw ERR_UNHANDLED_ERROR
  /\ effects_of run (Scenario.listening Scenario.loaded [-2; -1; 0])
     = [Native 0%nat (RunDetection_call []); Emit "silence" [];
        Native 0%nat (RunDetection_call []); Emit "error" []]
  /\ fst (run (Scenario.attended Scenario.loaded [-2; -1; 0])) = Return [-2; -1; 0]
  /\ effects_of run (Scenario.attended Scenario.loaded [-2; -1; 0])
     = [Native 0%nat (RunDetection_call []); Emit "silence" [];
        Native 0%nat (RunDetection_call []); Emit "error" [];
        Native 0%nat (RunDetection_call []); Emit "noise" []].
Proof. repeat split. Qed.

Lemma constructor_propagates_native_failure_witness :
  constructor (native := rejecting_detector) (Scenario.options None)
    (Scenario.world_of Scenario.loaded)
  = (Throw (Error "Failed to load resource."),
     log (Construct "common.res" "alexa.umdl,google.pmdl")
         (Scenario.world_of Scenario.loaded)).
Proof.
  apply (constructor_propagates_native_failure (native := rejecting_detector)
           (Scenario.options None) (Scenario.world_of Scenario.loaded)).
  reflexivity.
Defined.

Lemma constructor_needs_assigned_table_witness :
  let build := constructor (native := Scenario.detector) (Scenario.options None) in
  fst (build (Scenario.world_of Scenario.initial)) = Throw TypeError
  /\ effects_of build (Scenario.world_of Scenario.initial)
     = [Construct "common.res" ""; Native 0%nat NumHotwords_call].
Proof.
  apply (constructor_needs_assigned_table (native := Scenario.detector)
           (Scenario.options None) (Scenario.world_of Scenario.initial)
           (Scripted.mk 3 [] None)); reflexivity.
Defined.

Lemma constructor_returns_only_on_agreement_witness :
  exists e,
    native_new (SnowboyDetectNativeInterface := Scenario.detector)
      "common.res" "alexa.umdl,google.pmdl" = Return e
    /\ fst (HotwordModels.numHotwords Scenario.registry Scenario.loaded)
       = Return (Scripted.count e).
Proof.
  destruct (constructor_returns_only_on_agreement (native := Scenario.detector)
              (Scenario.options None) (Scenario.world_of Scenario.loaded)
              (snd (constructor (native := Scenario.detector) (Scenario.options None)
                      (Scenario.world_of Scenario.loaded)))
              Scenario.stream eq_refl) as (e & Hnew & Hcount & _).
  exists e. split; [exact Hnew|exact Hcount].
Defined.

Lemma falsy_gain_is_no_gain_witness :
  constructor (native := Scenario.detector) (Scenario.options (Some 0%float))
    (Scenario.world_of Scenario.loaded)
  = constructor (native := Scenario.detector) (Scenario.options None)
      (Scenario.world_of Scenario.loaded).
Proof.
  apply (falsy_gain_is_no_gain (native := Scenario.detector)
           "common.res" Scenario.registry 0%float (Scenario.world_of Scenario.loaded)).
  reflexivity.
Defined.

Lemma truthy_gain_is_setAudioGain_witness :
  constructor (native := Scenario.detector) (Scenario.options (Some 2%float))
    (Scenario.world_of Scenario.loaded)
  = (this ← constructor (native := Scenario.detector) (Scenario.options None);
     setAudioGain (native := Scenario.detector) this 2%float;;
     mret this) (Scenario.world_of Scenario.loaded).
Proof.
  apply (truthy_gain_is_setAudioGain (native := Scenario.detector)
           "common.res" Scenario.registry 2%float (Scenario.world_of Scenario.loaded)).
  reflexivity.
Defined.

End StreamUse.
